(** * otelgrpc: metrics reporter and unary server interceptor

    A shallow embedding of [grpcmetric.go] (package [otelgrpc]):
    [NewMetricsReporter], which registers five instruments against a meter,
    and [UnaryServerInterceptor], which wraps a unary handler and reports
    message counts, message sizes and latency.

    Go values are modelled as follows.
    - [interface{}] request and response values: the inductive [Any]
      (the nil interface, a value implementing [proto.Message], anything else).
    - [error]: [option error]; [None] is Go's [nil].
    - code with effects on the metric sink, the clock and the application:
      ExtLib's state monad over [World].
    - a Go function returning [(T, error)]: a pair, as in the source. *)

From Stdlib Require Import String Ascii List ZArith Lia Bool.
From ExtLib Require Import Structures.Monad Data.Monads.StateMonad.
Import ListNotations.
Import MonadNotation.
Local Open Scope monad_scope.
Local Open Scope string_scope.
Local Open Scope Z_scope.
Local Open Scope list_scope.

(** ** Package [strings] (the two functions the parser of method names uses) *)

Module strings.

(** [strings.TrimLeft(s, cutset)] for a one-character cutset: drops every
    leading occurrence of [c]. *)
Fixpoint TrimLeft (s : string) (c : ascii) : string :=
  match s with
  | EmptyString => EmptyString
  | String a rest => if Ascii.eqb a c then TrimLeft rest c else s
  end.

(** [strings.SplitN(s, sep, 2)] for a one-character separator: [s] alone
    when [sep] does not occur, else the text before the first [sep] and the
    whole remainder after it. *)
Fixpoint SplitN2 (s : string) (sep : ascii) : list string :=
  match s with
  | EmptyString => [EmptyString]
  | String a rest =>
      if Ascii.eqb a sep then [EmptyString; rest]
      else match SplitN2 rest sep with
           | [p] => [String a p]
           | p :: more => String a p :: more
           | [] => []
           end
  end.

(** [true] when the character occurs in the string. *)
Fixpoint ContainsRune (s : string) (c : ascii) : bool :=
  match s with
  | EmptyString => false
  | String a rest => Ascii.eqb a c || ContainsRune rest c
  end.

End strings.

(** ** Package [codes]: gRPC status codes, [type Code uint32] *)

Module codes.

Definition Code := N.

Definition OK : Code := 0%N.
Definition Canceled : Code := 1%N.
Definition Unknown : Code := 2%N.
Definition InvalidArgument : Code := 3%N.
Definition DeadlineExceeded : Code := 4%N.
Definition NotFound : Code := 5%N.

End codes.

(** ** Errors

    The error values the program meets: an error that carries a gRPC status
    (it has a [GRPCStatus()] method), a plain error ([errors.New]), and the
    wrapping error [fmt.Errorf] builds for a [%w] verb. *)

Inductive error : Type :=
  | statusError (c : codes.Code) (msg : string)
  | errorString (msg : string)
  | wrapError (msg : string) (cause : error).

(** The [Error()] method. *)
Definition Error (e : error) : string :=
  match e with
  | statusError _ msg => msg
  | errorString msg => msg
  | wrapError msg _ => msg
  end.

(** [errors.Unwrap]. *)
Definition Unwrap (e : error) : option error :=
  match e with
  | wrapError _ cause => Some cause
  | _ => None
  end.

(** ** Package [status] *)

Module status.

Record Status : Type := New { code : codes.Code; message : string }.

(** [status.FromError]: the status an error carries, with [ok = true]; for
    an error without one, a status with [codes.Unknown] and the error's
    message, with [ok = false]. A nil error gives a nil status. *)
Definition FromError (err : option error) : option Status * bool :=
  match err with
  | None => (None, true)
  | Some (statusError c msg) => (Some (New c msg), true)
  | Some e => (Some (New codes.Unknown (Error e)), false)
  end.

(** The [Code] method of a status pointer: a nil status reads as [codes.OK]. *)
Definition Code (s : option Status) : codes.Code :=
  match s with
  | None => codes.OK
  | Some st => code st
  end.

End status.

(** ** Labels *)

Inductive Value : Type :=
  | StringValue (s : string)
  | CodeValue (c : codes.Code).

Record KeyValue : Type := mkKeyValue { Key : string; KValue : Value }.

Definition RPCServiceKey : string := "rpc.service".
Definition RPCMethodKey : string := "rpc.method".

(** Modelled from the spec: the key of the outcome label is not in the
    source file; the specification's scenarios write it [status]. *)
Definition GRPCStatusCodeKey : string := "status".

(** Modelled from the spec: [statusCodeAttr] is defined in another file of
    the package. "Append outcome code as an additional label to the label
    set": one label whose value is the code. *)
Definition statusCodeAttr (c : codes.Code) : KeyValue :=
  mkKeyValue GRPCStatusCodeKey (CodeValue c).

(** Modelled from the spec: [parseFullMethod] is defined in another file of
    the package. A full method name has the form [/<service>/<method>]; it is
    split into a service and a method label. Leading slashes are dropped
    when present, the rest is split at the first separator; without a
    separator no label is derived, and an empty component gives no label
    (the "best-effort empty/partial labels" of the specification). The first
    component of the result is the name without its leading slash. *)
Definition parseFullMethod (fullMethod : string) : string * list KeyValue :=
  let name := strings.TrimLeft fullMethod "/"%char in
  match strings.SplitN2 name "/"%char with
  | [service; method] =>
      let attrs : list KeyValue := [] in
      let attrs :=
        if String.eqb service "" then attrs
        else attrs ++ [mkKeyValue RPCServiceKey (StringValue service)] in
      let attrs :=
        if String.eqb method "" then attrs
        else attrs ++ [mkKeyValue RPCMethodKey (StringValue method)] in
      (name, attrs)
  | _ => (name, [])
  end.

(** ** Package [time]: durations and the monotonic clock

    A [Duration] is an [int64] count of nanoseconds. A [Time] taken by
    [time.Now] carries a monotonic clock reading, and [time.Since] subtracts
    two such readings, saturating at the bounds of [Duration]. *)

Module time.

Definition Duration := Z.
Definition Time := Z.

Definition minDuration : Duration := - 2 ^ 63.
Definition maxDuration : Duration := 2 ^ 63 - 1.

(** The value of an [int64] computation: wrap-around modulo [2^64]. *)
Definition int64 (z : Z) : Z := (z + 2 ^ 63) mod 2 ^ 64 - 2 ^ 63.

(** [subMono(t, u)]: [t - u] as a [Duration], saturated. *)
Definition subMono (t u : Z) : Duration :=
  let d := int64 (t - u) in
  if (d <? 0) && (t >? u) then maxDuration
  else if (d >? 0) && (t <? u) then minDuration
  else d.

(** [(Duration).Milliseconds]: [int64(d) / 1e6], Go's integer division,
    which truncates toward zero. *)
Definition Milliseconds (d : Duration) : Z := Z.quot d 1000000.

End time.

(** ** Package [proto]: the message interface and its size query *)

Module proto.

Class Message (M : Type) : Type := { Size : M -> Z }.

End proto.

Set Implicit Arguments.

Section Otelgrpc.

(** The types the embedding program supplies: request contexts, protocol
    buffer messages, other dynamic values, instrument implementations (the
    handles a meter gives out), the state of the application behind the
    handlers and the state of the metric source behind the meter. *)
Variables (Ctx Msg Other SyncImpl App Source : Type).
Context {Msg_Message : proto.Message Msg}.

(** *** Dynamic values: Go's [interface{}] *)

Inductive Any : Type :=
  | nilValue
  | messageValue (m : Msg)
  | otherValue (o : Other).

(** The type assertion [v.(proto.Message)] with its [ok] result. *)
Definition assertMessage (v : Any) : option Msg :=
  match v with
  | messageValue m => Some m
  | _ => None
  end.

(** *** Package [metric]: instruments and meters *)

Record Int64UpDownCounter : Type := { counterInstrument : SyncImpl }.
Record Int64ValueRecorder : Type := { recorderInstrument : SyncImpl }.

Inductive InstrumentOption : Type :=
  | WithDescription (desc : string).

(** A meter creates instruments by name; creation acts on the metric source
    and returns the instrument together with an error, as in Go. *)
Record MeterT : Type := {
  NewInt64UpDownCounter :
    string -> list InstrumentOption ->
    state Source (Int64UpDownCounter * option error);
  NewInt64ValueRecorder :
    string -> list InstrumentOption ->
    state Source (Int64ValueRecorder * option error)
}.

Record MeterProvider : Type := { Meter : string -> MeterT }.

(** One measurement as the metric sink receives it. *)
Inductive Measurement : Type :=
  | Added (c : Int64UpDownCounter) (ctx : Ctx) (value : Z)
      (labels : list KeyValue)
  | Recorded (r : Int64ValueRecorder) (ctx : Ctx) (value : Z)
      (labels : list KeyValue).

(** *** The world a request runs in: the monotonic clock, the measurements
    the sink has received so far, and the application's own state.

    The clock is the reading [time.Now] would take. Time passes while a
    handler runs: the time a handler takes is the amount by which it moves
    the clock. A handler may also use the sink and the application state. *)

Record World : Type := mkWorld {
  clock : time.Time;
  sink : list Measurement;
  app : App
}.

Definition emit (m : Measurement) : state World unit :=
  mkState (fun w => (tt, mkWorld (clock w) (sink w ++ [m]) (app w))).

(** [c.Add(ctx, value, labels...)] *)
Definition Add (c : Int64UpDownCounter) (ctx : Ctx) (value : Z)
    (labels : list KeyValue) : state World unit :=
  emit (Added c ctx value labels).

(** [r.Record(ctx, value, labels...)] *)
Definition Record_ (r : Int64ValueRecorder) (ctx : Ctx) (value : Z)
    (labels : list KeyValue) : state World unit :=
  emit (Recorded r ctx value labels).

(** [time.Now()] *)
Definition Now : state World time.Time :=
  mkState (fun w => (clock w, w)).

(** [time.Since(start)] *)
Definition Since (start : time.Time) : state World time.Duration :=
  mkState (fun w => (time.subMono (clock w) start, w)).

(** *** Package [grpc]: the unary interceptor interface

    gRPC hands the interceptor a call info that is not nil, and a handler;
    a handler is modelled by what it returns and what it does to the world. *)

Record UnaryServerInfo : Type := { Server : Any; FullMethod : string }.

Definition UnaryHandler : Type :=
  Ctx -> Any -> state World (Any * option error).

Definition UnaryServerInterceptorT : Type :=
  Ctx -> Any -> UnaryServerInfo -> UnaryHandler ->
  state World (Any * option error).

(** *** [grpcmetric.go] *)

(** Metric names reported by the MetricsReporter. *)
Definition ServerMsgReceivedCounter : string := "grpc.server.msg.received.total".
Definition ServerMsgReceivedBytes : string := "grpc.server.msg.received.bytes".
Definition ServerMsgSentCounter : string := "grpc.server.msg.sent.total".
Definition ServerMsgSentBytes : string := "grpc.server.msg.sent.bytes".
Definition ServerLatencyMilliseconds : string := "grpc.server.latency.milliseconds".

Record MetricsReporter : Type := {
  serverMsgReceivedCounter : Int64UpDownCounter;
  serverMsgReceivedBytes : Int64ValueRecorder;
  serverMsgSentCounter : Int64UpDownCounter;
  serverMsgSentBytes : Int64ValueRecorder;
  serverLatencyMilliseconds : Int64ValueRecorder
}.

(** The name the package asks its meter under; a constant of another file
    of the package. *)
Variable instrumentationName : string.

(** The closure [withMessage] of [NewMetricsReporter]:
    [fmt.Errorf("otelgrpc: failed to register metric '%s': %w", metric, err)]. *)
Definition withMessage (err : error) (metric : string) : error :=
  wrapError
    ("otelgrpc: failed to register metric '" ++ metric ++ "': " ++ Error err)%string
    err.

Definition NewMetricsReporter (meterProvider : MeterProvider)
  : state Source (option MetricsReporter * option error) :=
  let meter := Meter meterProvider instrumentationName in
  '(serverMsgReceivedCounter, err) <-
    NewInt64UpDownCounter meter ServerMsgReceivedCounter
      [WithDescription "Total number of messages received on the server"] ;;
  match err with
  | Some err => ret (None, Some (withMessage err ServerMsgReceivedCounter))
  | None =>
  '(serverMsgReceivedBytes, err) <-
    NewInt64ValueRecorder meter ServerMsgReceivedBytes
      [WithDescription "Number of bytes received by the server"] ;;
  match err with
  | Some err => ret (None, Some (withMessage err ServerMsgReceivedBytes))
  | None =>
  '(serverMsgSentCounter, err) <-
    NewInt64UpDownCounter meter ServerMsgSentCounter
      [WithDescription "Total number of messages sent by the server"] ;;
  match err with
  | Some err => ret (None, Some (withMessage err ServerMsgSentCounter))
  | None =>
  '(serverMsgSentBytes, err) <-
    NewInt64ValueRecorder meter ServerMsgSentBytes
      [WithDescription "Number of bytes sent by the server"] ;;
  match err with
  | Some err => ret (None, Some (withMessage err ServerMsgSentBytes))
  | None =>
  '(serverLatencyMilliseconds, err) <-
    NewInt64ValueRecorder meter ServerLatencyMilliseconds
      [WithDescription "Latency recorded by the server to handle a gRPC request"] ;;
  match err with
  | Some err => ret (None, Some (withMessage err ServerLatencyMilliseconds))
  | None =>
  ret (Some {| serverMsgReceivedCounter := serverMsgReceivedCounter;
               serverMsgReceivedBytes := serverMsgReceivedBytes;
               serverMsgSentCounter := serverMsgSentCounter;
               serverMsgSentBytes := serverMsgSentBytes;
               serverLatencyMilliseconds := serverLatencyMilliseconds |},
       None)
  end end end end end.

Definition UnaryServerInterceptor (mr : MetricsReporter)
  : UnaryServerInterceptorT :=
  fun ctx req info handler =>
    start <- Now ;;
    let '(_, attributes) := parseFullMethod (FullMethod info) in
    Add (serverMsgReceivedCounter mr) ctx 1 attributes ;;
    match assertMessage req with
    | Some p =>
        (* int64(proto.Size(p)): the conversion from int keeps the value *)
        Record_ (serverMsgReceivedBytes mr) ctx (proto.Size p) attributes
    | None => ret tt
    end ;;
    let code := codes.OK in
    '(resp, err) <- handler ctx req ;;
    latency <- Since start ;;
    let code :=
      match err with
      | Some _ => let '(status, _) := status.FromError err in status.Code status
      | None => code
      end in
    let attributes := attributes ++ [statusCodeAttr code] in
    Add (serverMsgSentCounter mr) ctx 1 attributes ;;
    Record_ (serverLatencyMilliseconds mr) ctx (time.Milliseconds latency)
      attributes ;;
    match assertMessage resp with
    | Some p => Record_ (serverMsgSentBytes mr) ctx (proto.Size p) attributes
    | None => ret tt
    end ;;
    ret (resp, err).

(** *** Vocabulary of the statements *)

(** The world after the sink has received [ms]. *)
Definition record_all (ms : list Measurement) (w : World) : World :=
  mkWorld (clock w) (sink w ++ ms) (app w).

(** One invocation of the interceptor, seen from outside: it hands [pre] to
    the sink, calls the handler in the resulting world, hands [post] to the
    sink and returns what the handler returned. *)
Definition invocation (mr : MetricsReporter) (ctx : Ctx) (req : Any)
    (info : UnaryServerInfo) (handler : UnaryHandler) (w : World)
    (pre post : list Measurement) : Prop :=
  let hw := runState (handler ctx req) (record_all pre w) in
  runState (UnaryServerInterceptor mr ctx req info handler) w
  = (fst hw, record_all post (snd hw)).

(** What the sink received between two states of the world. *)
Definition newMeasurements (w w' : World) : list Measurement :=
  skipn (length (sink w)) (sink w').

Definition labelsOf (m : Measurement) : list KeyValue :=
  match m with
  | Added _ _ _ labels => labels
  | Recorded _ _ _ labels => labels
  end.

(** The outcome code in the specification's words: the success code without
    an error, the code of the status the error carries, and the fallback
    [codes.Unknown] for an error that carries none. *)
Definition outcomeCode (err : option error) : codes.Code :=
  match err with
  | None => codes.OK
  | Some (statusError c _) => c
  | Some _ => codes.Unknown
  end.

(** The measurements of the received side and of the sent side, written as
    lists; [UnaryServerInterceptor_run] relates them to the code. *)
Definition receivedSide (mr : MetricsReporter) (ctx : Ctx) (req : Any)
    (labels : list KeyValue) : list Measurement :=
  Added (serverMsgReceivedCounter mr) ctx 1 labels ::
  match assertMessage req with
  | Some p => [Recorded (serverMsgReceivedBytes mr) ctx (proto.Size p) labels]
  | None => []
  end.

Definition sentSide (mr : MetricsReporter) (ctx : Ctx) (resp : Any)
    (latency : time.Duration) (labels : list KeyValue) : list Measurement :=
  Added (serverMsgSentCounter mr) ctx 1 labels ::
  Recorded (serverLatencyMilliseconds mr) ctx (time.Milliseconds latency) labels ::
  match assertMessage resp with
  | Some p => [Recorded (serverMsgSentBytes mr) ctx (proto.Size p) labels]
  | None => []
  end.

(** A payload has a computable byte size when it is a [proto.Message]. *)
Definition sized (v : Any) : bool :=
  match assertMessage v with
  | Some _ => true
  | None => false
  end.

(** Instrument implementations can be told apart. *)
Variable SyncImpl_eq_dec : forall a b : SyncImpl, {a = b} + {a <> b}.

Definition isAddTo (c : Int64UpDownCounter) (m : Measurement) : bool :=
  match m with
  | Added c' _ _ _ =>
      if SyncImpl_eq_dec (counterInstrument c) (counterInstrument c')
      then true else false
  | Recorded _ _ _ _ => false
  end.

Definition isRecordTo (r : Int64ValueRecorder) (m : Measurement) : bool :=
  match m with
  | Added _ _ _ _ => false
  | Recorded r' _ _ _ =>
      if SyncImpl_eq_dec (recorderInstrument r) (recorderInstrument r')
      then true else false
  end.

(** How many times a counter was added to, a recorder recorded to. *)
Definition addsTo (c : Int64UpDownCounter) (ms : list Measurement) : nat :=
  length (filter (isAddTo c) ms).

Definition recordsTo (r : Int64ValueRecorder) (ms : list Measurement) : nat :=
  length (filter (isRecordTo r) ms).

(** The five instruments of a reporter are five different instruments. *)
Definition distinctInstruments (mr : MetricsReporter) : Prop :=
  counterInstrument (serverMsgReceivedCounter mr)
    <> counterInstrument (serverMsgSentCounter mr) /\
  recorderInstrument (serverMsgReceivedBytes mr)
    <> recorderInstrument (serverMsgSentBytes mr) /\
  recorderInstrument (serverMsgReceivedBytes mr)
    <> recorderInstrument (serverLatencyMilliseconds mr) /\
  recorderInstrument (serverMsgSentBytes mr)
    <> recorderInstrument (serverLatencyMilliseconds mr).

(** The number of outcome labels in a label set. *)
Definition outcomeLabels (labels : list KeyValue) : nat :=
  length (filter (fun l => String.eqb (Key l) GRPCStatusCodeKey) labels).

(** A handler without side effects: its result does not depend on the world,
    and it leaves the sink and the application state as they were. Time
    passes while it runs. *)
Definition sideEffectFree (handler : UnaryHandler) : Prop :=
  forall ctx req w w',
    fst (runState (handler ctx req) w) = fst (runState (handler ctx req) w') /\
    sink (snd (runState (handler ctx req) w)) = sink w /\
    app (snd (runState (handler ctx req) w)) = app w.

(** Two measurements that are the same, or are two records to the latency
    recorder that differ in the recorded value only. *)
Definition sameButLatency (mr : MetricsReporter) (a b : Measurement) : Prop :=
  a = b \/
  exists ctx v1 v2 labels,
    a = Recorded (serverLatencyMilliseconds mr) ctx v1 labels /\
    b = Recorded (serverLatencyMilliseconds mr) ctx v2 labels.

(** *** The registrar in the specification's words

    "For each of the five fixed instrument specs (name, kind, description),
    attempt creation against the source, in a fixed order. On the first
    failure, abort immediately and return an error identifying which named
    instrument failed and wrapping the underlying cause." *)

Inductive InstrumentKind : Type := UpDownCounterKind | ValueRecorderKind.

Record InstrumentRequest : Type := {
  requestKind : InstrumentKind;
  requestName : string;
  requestOptions : list InstrumentOption
}.

Inductive Instrument : Type :=
  | counterHandle (c : Int64UpDownCounter)
  | recorderHandle (r : Int64ValueRecorder).

Definition create (meter : MeterT) (rq : InstrumentRequest)
  : state Source (Instrument * option error) :=
  match requestKind rq with
  | UpDownCounterKind =>
      '(c, err) <- NewInt64UpDownCounter meter (requestName rq)
                     (requestOptions rq) ;;
      ret (counterHandle c, err)
  | ValueRecorderKind =>
      '(r, err) <- NewInt64ValueRecorder meter (requestName rq)
                     (requestOptions rq) ;;
      ret (recorderHandle r, err)
  end.

(** The five fixed instrument specs, in their order. *)
Definition serverInstruments : list InstrumentRequest :=
  [ {| requestKind := UpDownCounterKind;
       requestName := ServerMsgReceivedCounter;
       requestOptions :=
         [WithDescription "Total number of messages received on the server"] |};
    {| requestKind := ValueRecorderKind;
       requestName := ServerMsgReceivedBytes;
       requestOptions :=
         [WithDescription "Number of bytes received by the server"] |};
    {| requestKind := UpDownCounterKind;
       requestName := ServerMsgSentCounter;
       requestOptions :=
         [WithDescription "Total number of messages sent by the server"] |};
    {| requestKind := ValueRecorderKind;
       requestName := ServerMsgSentBytes;
       requestOptions :=
         [WithDescription "Number of bytes sent by the server"] |};
    {| requestKind := ValueRecorderKind;
       requestName := ServerLatencyMilliseconds;
       requestOptions :=
         [WithDescription
            "Latency recorded by the server to handle a gRPC request"] |} ].

(** The handles created, or the name of the first instrument whose creation
    failed together with the cause. *)
Fixpoint registerInOrder (meter : MeterT) (rqs : list InstrumentRequest)
  : state Source (list Instrument + string * error) :=
  match rqs with
  | [] => ret (inl [])
  | rq :: rest =>
      '(h, err) <- create meter rq ;;
      match err with
      | Some cause => ret (inr (requestName rq, cause))
      | None =>
          r <- registerInOrder meter rest ;;
          ret match r with
              | inl hs => inl (h :: hs)
              | inr failure => inr failure
              end
      end
  end.

End Otelgrpc.

Section Tracing.

Variables (SyncImpl Source : Type).

(** A meter that also keeps, next to the source, the list of the creation
    requests it was sent, in order. *)
Definition traced (meter : MeterT SyncImpl Source)
  : MeterT SyncImpl (Source * list InstrumentRequest) :=
  {| NewInt64UpDownCounter name opts :=
       mkState (fun st =>
         let '(r, s') :=
           runState (NewInt64UpDownCounter meter name opts) (fst st) in
         (r, (s', snd st ++ [Build_InstrumentRequest UpDownCounterKind name opts])));
     NewInt64ValueRecorder name opts :=
       mkState (fun st =>
         let '(r, s') :=
           runState (NewInt64ValueRecorder meter name opts) (fst st) in
         (r, (s', snd st ++ [Build_InstrumentRequest ValueRecorderKind name opts])))
  |}.

Definition tracedProvider (meterProvider : MeterProvider SyncImpl Source)
  : MeterProvider SyncImpl (Source * list InstrumentRequest) :=
  {| Meter name := traced (Meter meterProvider name) |}.

End Tracing.

(** ** Fixtures: concrete instances used to run the definitions

    Contexts are [unit], a message is its encoding, instruments are known by
    their names, the application has no state, and the metric source counts
    the instruments it created. *)

#[export] Instance encoded_Message : proto.Message string :=
  {| proto.Size m := Z.of_nat (String.length m) |}.

(** A meter that creates every instrument under its name, except where
    [fails] gives an error. *)
Definition namedMeter (fails : string -> option error) : MeterT string nat :=
  {| NewInt64UpDownCounter name _ :=
       mkState (fun n => ((Build_Int64UpDownCounter name, fails name), S n));
     NewInt64ValueRecorder name _ :=
       mkState (fun n => ((Build_Int64ValueRecorder name, fails name), S n))
  |}.

Definition namedProvider (fails : string -> option error)
  : MeterProvider string nat :=
  {| Meter _ := namedMeter fails |}.

Definition failsOn (bad : string) (name : string) : option error :=
  if String.eqb name bad then Some (errorString "duplicate instrument")
  else None.

Definition namedReporter : MetricsReporter string :=
  {| serverMsgReceivedCounter := Build_Int64UpDownCounter ServerMsgReceivedCounter;
     serverMsgReceivedBytes := Build_Int64ValueRecorder ServerMsgReceivedBytes;
     serverMsgSentCounter := Build_Int64UpDownCounter ServerMsgSentCounter;
     serverMsgSentBytes := Build_Int64ValueRecorder ServerMsgSentBytes;
     serverLatencyMilliseconds := Build_Int64ValueRecorder ServerLatencyMilliseconds
  |}.

(** A handler that answers [(resp, err)] once the clock reads [deadline] (at
    once when that time has passed), and touches nothing else. *)
Definition answerAt (deadline : Z) (resp : Any string nat)
    (err : option error) : UnaryHandler unit string nat string unit :=
  fun _ _ =>
    mkState (fun w =>
      ((resp, err), mkWorld (Z.max (clock w) deadline) (sink w) (app w))).

Definition getInfo : UnaryServerInfo string nat :=
  {| Server := nilValue string nat; FullMethod := "/pkg.Service/Get" |}.

Definition startWorld : World unit string unit := mkWorld 0 [] tt.

(** A call info whose method name has neither leading slash nor separator. *)
Definition bareInfo : UnaryServerInfo string nat :=
  {| Server := nilValue string nat; FullMethod := "Get" |}.

(** A later world: the clock has advanced and the sink holds a measurement
    of an earlier call. *)
Definition laterWorld : World unit string unit :=
  mkWorld 400000
    [Added (serverMsgReceivedCounter namedReporter) tt 1 []] tt.

(** ** Meters and handlers by what they do *)

Section Usage.

Variables (Ctx Msg Other SyncImpl App Source : Type).

(** A meter none of whose creations returns an error. *)
Definition neverFails (meter : MeterT SyncImpl Source) : Prop :=
  forall name opts s,
    snd (fst (runState (NewInt64UpDownCounter meter name opts) s)) = None /\
    snd (fst (runState (NewInt64ValueRecorder meter name opts) s)) = None.

(** A meter whose instruments are determined by the name they were created
    under: [implOf name] is the implementation behind the handle. *)
Definition namesInstruments (meter : MeterT SyncImpl Source)
    (implOf : string -> SyncImpl) : Prop :=
  forall name opts s,
    counterInstrument
      (fst (fst (runState (NewInt64UpDownCounter meter name opts) s)))
    = implOf name /\
    recorderInstrument
      (fst (fst (runState (NewInt64ValueRecorder meter name opts) s)))
    = implOf name.

(** A handler that only adds to what the sink holds. *)
Definition appendOnly (handler : UnaryHandler Ctx Msg Other SyncImpl App)
  : Prop :=
  forall ctx req w,
    exists ms, sink (snd (runState (handler ctx req) w)) = sink w ++ ms.

(** A handler that looks neither at the sink nor at the clock: its result
    and what it does to the application state are the same whatever the sink
    holds and whatever the clock reads. *)
Definition sinkAndClockBlind
    (handler : UnaryHandler Ctx Msg Other SyncImpl App) : Prop :=
  forall ctx req w t ms,
    let direct := runState (handler ctx req) w in
    let other := runState (handler ctx req) (mkWorld t ms (app w)) in
    fst other = fst direct /\
    app (snd other) = app (snd direct).

End Usage.

(** A handler that counts the request on an instrument of its own and
    echoes it. *)
Definition echoHandler : UnaryHandler unit string nat string unit :=
  fun ctx req =>
    Add unit (Build_Int64UpDownCounter "app.requests") ctx 1 [] ;;
    ret (req, None).

(** ** Properties *)

Section Properties.

Variables (Ctx Msg Other SyncImpl App Source : Type).
Context {Msg_Message : proto.Message Msg}.
Variable SyncImpl_eq_dec : forall a b : SyncImpl, {a = b} + {a <> b}.
Variable instrumentationName : string.

Local Abbreviation world := (World Ctx SyncImpl App).
Local Abbreviation any := (Any Msg Other).
Local Abbreviation handlerT := (UnaryHandler Ctx Msg Other SyncImpl App).
Local Abbreviation reporter := (MetricsReporter SyncImpl).
Local Abbreviation measurement := (Measurement Ctx SyncImpl).

(** The code of the interceptor computes [outcomeCode]. *)
Lemma outcomeCode_FromError (e : error) :
  (let '(status, _) := status.FromError (Some e) in status.Code status)
  = outcomeCode (Some e).
Proof. destruct e; reflexivity. Qed.

(** One run of the interceptor, step by step: the received side goes to the
    sink, the handler runs, the sent side goes to the sink with the outcome
    label appended, and the handler's result is returned. *)
Lemma UnaryServerInterceptor_run (mr : reporter) ctx (req : any) info
    (handler : handlerT) (w : world) :
  let labels := snd (parseFullMethod (FullMethod info)) in
  let pre := receivedSide mr ctx req labels in
  let hw := runState (handler ctx req) (record_all pre w) in
  let resp := fst (fst hw) in
  let err := snd (fst hw) in
  let latency := time.subMono (clock (snd hw)) (clock w) in
  invocation mr ctx req info handler w pre
    (sentSide mr ctx resp latency (labels ++ [statusCodeAttr (outcomeCode err)])).
Proof.
  unfold invocation, UnaryServerInterceptor, receivedSide, sentSide, record_all.
  cbn.
  destruct (parseFullMethod (FullMethod info)) as [name attributes]. cbn.
  destruct (assertMessage req); cbn; rewrite <- ?app_assoc; cbn;
    destruct (runState (handler ctx req) _) as [[resp err] w2]; cbn;
    (destruct err as [e|];
     [ rewrite (outcomeCode_FromError e) | ]);
    cbn; destruct (assertMessage resp); cbn; rewrite <- ?app_assoc;
    reflexivity.
Qed.

Ltac decide_instruments :=
  repeat match goal with
         | |- context [SyncImpl_eq_dec ?a ?b] =>
             destruct (SyncImpl_eq_dec a b); try congruence
         end.

(** [time.subMono] on a clock that did not run backwards. *)
Lemma subMono_nonneg (t u : Z) : u <= t -> 0 <= time.subMono t u.
Proof.
  intros Hle. unfold time.subMono.
  destruct (time.int64 (t - u) <? 0) eqn:Hneg; cbn.
  - destruct (t >? u) eqn:Hgt.
    + unfold time.maxDuration. lia.
    + destruct (time.int64 (t - u) >? 0) eqn:Hpos; [ lia | ].
      assert (t = u) by lia. subst. rewrite Z.sub_diag in Hneg.
      discriminate Hneg.
  - destruct (time.int64 (t - u) >? 0) eqn:Hpos; cbn.
    + destruct (t <? u) eqn:Hlt; lia.
    + lia.
Qed.

Lemma subMono_exact (t u : Z) :
  0 <= t - u < 2 ^ 63 -> time.subMono t u = t - u.
Proof.
  intros Hr. unfold time.subMono.
  assert (Hd : time.int64 (t - u) = t - u).
  { unfold time.int64. rewrite Z.mod_small; lia. }
  rewrite Hd.
  destruct (t - u <? 0) eqn:Hneg; [ lia | ].
  destruct (t <? u) eqn:Hlt; [ lia | ].
  cbn. rewrite andb_false_r. reflexivity.
Qed.

(** [Milliseconds] truncates: the result is the number of whole
    milliseconds of a duration that is not negative. *)
Lemma Milliseconds_truncates (d : time.Duration) :
  0 <= d ->
  0 <= time.Milliseconds d /\
  1000000 * time.Milliseconds d <= d < 1000000 * (time.Milliseconds d + 1).
Proof.
  intros Hd. unfold time.Milliseconds.
  rewrite Z.quot_div_nonneg by lia.
  pose proof (Z.div_pos d 1000000 Hd ltac:(lia)).
  pose proof (Z.mul_div_le d 1000000 ltac:(lia)).
  pose proof (Z.mul_succ_div_gt d 1000000 ltac:(lia)).
  lia.
Qed.

(** C1. The pair (response, error) the interceptor returns is the pair the
    wrapped handler returned, for every reporter, context, request, call
    info, handler and world. The handler is called once, in the world in
    which the received side has been recorded. *)
Theorem C1_result_is_handler_result :
  forall (mr : reporter) ctx (req : any) info,
  exists pre : list measurement,
  forall (handler : handlerT) (w : world),
    fst (runState (UnaryServerInterceptor mr ctx req info handler) w)
    = fst (runState (handler ctx req) (record_all pre w)) /\
    exists post, invocation mr ctx req info handler w pre post.
Proof.
  intros mr ctx req info. eexists. intros handler w.
  pose proof (UnaryServerInterceptor_run mr ctx req info handler w) as Hrun.
  cbv zeta in Hrun. split.
  - unfold invocation in Hrun. rewrite Hrun. reflexivity.
  - eexists. exact Hrun.
Qed.

(** C2. Every call adds once to the received counter and once to the sent
    counter and records once to the latency recorder; it records once to the
    received-bytes recorder when the request is a sized payload and not at
    all otherwise, and the same, independently, for the sent-bytes recorder
    and the response. Nothing else is sent to the sink. *)
Theorem C2_measurement_counts :
  forall (mr : reporter) ctx (req : any) info,
  distinctInstruments mr ->
  exists pre : list measurement,
  forall (handler : handlerT) (w : world),
  exists post,
    invocation mr ctx req info handler w pre post /\
    let resp := fst (fst (runState (handler ctx req) (record_all pre w))) in
    let ms := pre ++ post in
    addsTo SyncImpl_eq_dec (serverMsgReceivedCounter mr) ms = 1%nat /\
    addsTo SyncImpl_eq_dec (serverMsgSentCounter mr) ms = 1%nat /\
    recordsTo SyncImpl_eq_dec (serverLatencyMilliseconds mr) ms = 1%nat /\
    recordsTo SyncImpl_eq_dec (serverMsgReceivedBytes mr) ms
      = (if sized req then 1%nat else 0%nat) /\
    recordsTo SyncImpl_eq_dec (serverMsgSentBytes mr) ms
      = (if sized resp then 1%nat else 0%nat) /\
    length ms
      = (3 + (if sized req then 1 else 0) + (if sized resp then 1 else 0))%nat.
Proof.
  intros mr ctx req info (Hc & Hrs & Hrl & Hsl).
  eexists. intros handler w. eexists. split.
  - exact (UnaryServerInterceptor_run mr ctx req info handler w).
  - cbv zeta.
    destruct (runState (handler ctx req) _) as [[resp err] w2]. cbn [fst snd].
    unfold addsTo, recordsTo, receivedSide, sentSide, sized.
    destruct (assertMessage req), (assertMessage resp); cbn;
      decide_instruments; cbn; repeat split; reflexivity.
Qed.

(** C3. The outcome code of a call is one code, fixed after the handler has
    returned and carried by every measurement of the sent side: [codes.OK]
    when the handler's error is nil, the code [c] when the error carries a
    status with code [c], and [codes.Unknown] when the error carries no
    status. *)
Theorem C3_outcome_code :
  forall (mr : reporter) ctx (req : any) info,
  exists pre : list measurement,
  forall (handler : handlerT) (w : world),
  exists post code,
    invocation mr ctx req info handler w pre post /\
    post <> [] /\
    Forall (fun m => labelsOf m
                     = snd (parseFullMethod (FullMethod info))
                       ++ [statusCodeAttr code]) post /\
    code = match snd (fst (runState (handler ctx req) (record_all pre w))) with
           | None => codes.OK
           | Some (statusError c _) => c
           | Some _ => codes.Unknown
           end.
Proof.
  intros mr ctx req info. eexists. intros handler w. do 2 eexists.
  split; [ exact (UnaryServerInterceptor_run mr ctx req info handler w) | ].
  split; [ discriminate | ].
  split; [ | reflexivity ].
  unfold sentSide.
  destruct (assertMessage _); repeat constructor.
Qed.

(** C4. The measurements of the received side (received count, received
    bytes) carry the labels derived from the method name and no outcome
    label; the measurements of the sent side (sent count, latency, sent
    bytes) all carry one and the same label set, the method labels followed
    by one outcome label, the label of the code of the handler's error. The
    two sides are given in full: which measurements they consist of, and the
    label set of each. *)
Theorem C4_label_sets :
  forall (mr : reporter) ctx (req : any) info,
  exists pre : list measurement,
  forall (handler : handlerT) (w : world),
  exists post code,
    invocation mr ctx req info handler w pre post /\
    let methodLabels := snd (parseFullMethod (FullMethod info)) in
    let sentLabels := methodLabels ++ [statusCodeAttr code] in
    let hw := runState (handler ctx req) (record_all pre w) in
    pre =
      Added (serverMsgReceivedCounter mr) ctx 1 methodLabels ::
      match req with
      | messageValue _ p =>
          [Recorded (serverMsgReceivedBytes mr) ctx (proto.Size p) methodLabels]
      | nilValue _ _ | otherValue _ _ => []
      end /\
    (exists ms,
        post =
          Added (serverMsgSentCounter mr) ctx 1 sentLabels ::
          Recorded (serverLatencyMilliseconds mr) ctx ms sentLabels ::
          match fst (fst hw) with
          | messageValue _ p =>
              [Recorded (serverMsgSentBytes mr) ctx (proto.Size p) sentLabels]
          | nilValue _ _ | otherValue _ _ => []
          end) /\
    code = match snd (fst hw) with
           | None => codes.OK
           | Some (statusError c _) => c
           | Some _ => codes.Unknown
           end /\
    outcomeLabels methodLabels = 0%nat /\
    outcomeLabels sentLabels = 1%nat.
Proof.
  intros mr ctx req info. eexists. intros handler w. do 2 eexists.
  split; [ exact (UnaryServerInterceptor_run mr ctx req info handler w) | ].
  cbv zeta.
  assert (Hnone : outcomeLabels (snd (parseFullMethod (FullMethod info))) = 0%nat).
  { unfold parseFullMethod.
    destruct (strings.SplitN2 _ _) as [|service [|method [|]]]; try reflexivity.
    cbn. destruct (String.eqb service ""), (String.eqb method ""); reflexivity. }
  split; [ | split; [ | split; [ | split ] ] ].
  - unfold receivedSide. destruct req; reflexivity.
  - eexists. unfold sentSide.
    destruct (fst (fst (runState (handler ctx req) _))); reflexivity.
  - reflexivity.
  - exact Hnone.
  - unfold outcomeLabels in *. rewrite filter_app, length_app, Hnone.
    reflexivity.
Qed.

(** C6. The value recorded to the latency recorder is the duration between
    the clock reading taken before the call and the reading taken when the
    handler has returned, in whole milliseconds; on a clock that does not run
    backwards it is not negative, and it is the elapsed time truncated to
    milliseconds (so a call shorter than a millisecond records 0). *)
Theorem C6_latency_milliseconds :
  forall (mr : reporter) ctx (req : any) info,
  exists pre : list measurement,
  forall (handler : handlerT) (w : world),
  exists labels rest,
    let w2 := snd (runState (handler ctx req) (record_all pre w)) in
    let ms := time.Milliseconds (time.subMono (clock w2) (clock w)) in
    invocation mr ctx req info handler w pre
      (Added (serverMsgSentCounter mr) ctx 1 labels ::
       Recorded (serverLatencyMilliseconds mr) ctx ms labels :: rest) /\
    (length rest <= 1)%nat /\
    (clock w <= clock w2 -> 0 <= ms) /\
    (0 <= clock w2 - clock w < 2 ^ 63 ->
     ms = Z.quot (clock w2 - clock w) 1000000 /\
     1000000 * ms <= clock w2 - clock w < 1000000 * (ms + 1)).
Proof.
  intros mr ctx req info. eexists. intros handler w. do 2 eexists.
  cbv zeta.
  split; [ exact (UnaryServerInterceptor_run mr ctx req info handler w) | ].
  split; [ destruct (assertMessage _); cbn; lia | ].
  split.
  - intros Hle. apply Milliseconds_truncates. now apply subMono_nonneg.
  - intros Hr. rewrite (subMono_exact _ _ Hr). split; [ reflexivity | ].
    apply Milliseconds_truncates. lia.
Qed.

(** C10. Recording the sent bytes does not depend on the outcome: when the
    handler returns an error together with a sized response, the sent side
    ends with one record of the response's size to the sent-bytes recorder,
    under the label set that carries the error's code; when the response is
    nil or is not a sized payload, the sent side consists of the sent count
    and the latency only, also without an error. *)
Theorem C10_sent_bytes_any_outcome :
  forall (mr : reporter) ctx (req : any) info,
  exists pre : list measurement,
  forall (handler : handlerT) (w : world),
  exists post,
    invocation mr ctx req info handler w pre post /\
    let hw := runState (handler ctx req) (record_all pre w) in
    let latency := time.subMono (clock (snd hw)) (clock w) in
    let labels := snd (parseFullMethod (FullMethod info))
                  ++ [statusCodeAttr
                        match snd (fst hw) with
                        | None => codes.OK
                        | Some e => status.Code (fst (status.FromError (Some e)))
                        end] in
    post =
      Added (serverMsgSentCounter mr) ctx 1 labels ::
      Recorded (serverLatencyMilliseconds mr) ctx (time.Milliseconds latency)
        labels ::
      match fst (fst hw) with
      | messageValue _ p =>
          [Recorded (serverMsgSentBytes mr) ctx (proto.Size p) labels]
      | nilValue _ _ | otherValue _ _ => []
      end.
Proof.
  intros mr ctx req info. eexists. intros handler w. eexists.
  split; [ exact (UnaryServerInterceptor_run mr ctx req info handler w) | ].
  cbv zeta. unfold sentSide.
  destruct (runState (handler ctx req) _) as [[resp err] w2]. cbn [fst snd].
  assert (Hcode : outcomeCode err
                  = match err with
                    | None => codes.OK
                    | Some e => status.Code (fst (status.FromError (Some e)))
                    end).
  { destruct err as [[]|]; reflexivity. }
  rewrite Hcode. destruct resp; reflexivity.
Qed.

(** One creation of an instrument: its result is an instrument with an
    error or with none, and the next state of the source. *)
Ltac creation :=
  match goal with
  | |- context [runState (?f ?m ?n ?o) ?s] =>
      is_var s;
      destruct (runState (f m n o) s) as [[? [?|]] ?]; cbn
  end.

(** The registrar of the code against the registrar in the specification's
    words, for every meter provider and every state of the source. *)
Lemma NewMetricsReporter_registerInOrder
    (meterProvider : MeterProvider SyncImpl Source) (s : Source) :
  match runState (registerInOrder (Meter meterProvider instrumentationName)
                    serverInstruments) s with
  | (inr (name, cause), s') =>
      runState (NewMetricsReporter instrumentationName meterProvider) s
      = ((None, Some (withMessage cause name)), s')
  | (inl hs, s') =>
      exists mr,
        runState (NewMetricsReporter instrumentationName meterProvider) s
        = ((Some mr, None), s') /\
        hs = [counterHandle (serverMsgReceivedCounter mr);
              recorderHandle (serverMsgReceivedBytes mr);
              counterHandle (serverMsgSentCounter mr);
              recorderHandle (serverMsgSentBytes mr);
              recorderHandle (serverLatencyMilliseconds mr)]
  end.
Proof.
  unfold NewMetricsReporter, serverInstruments, registerInOrder, create.
  cbn.
  do 5 (creation; [ reflexivity | ]).
  eexists. split; reflexivity.
Qed.

(** C5. The five instruments are created in their fixed order. At the first
    creation that fails, [NewMetricsReporter] returns at once: a nil
    reporter, and an error whose message names the instrument and which
    wraps the cause. When every creation succeeds it returns a reporter made
    of the five handles, and a nil error. *)
Theorem C5_first_failure_aborts :
  forall (meterProvider : MeterProvider SyncImpl Source) (s : Source),
  match runState (registerInOrder (Meter meterProvider instrumentationName)
                    serverInstruments) s with
  | (inr (name, cause), s') =>
      exists err,
        runState (NewMetricsReporter instrumentationName meterProvider) s
        = ((None, Some err), s') /\
        Error err
        = ("otelgrpc: failed to register metric '" ++ name ++ "': "
           ++ Error cause)%string /\
        Unwrap err = Some cause
  | (inl hs, s') =>
      exists mr,
        runState (NewMetricsReporter instrumentationName meterProvider) s
        = ((Some mr, None), s') /\
        hs = [counterHandle (serverMsgReceivedCounter mr);
              recorderHandle (serverMsgReceivedBytes mr);
              counterHandle (serverMsgSentCounter mr);
              recorderHandle (serverMsgSentBytes mr);
              recorderHandle (serverLatencyMilliseconds mr)]
  end.
Proof.
  intros meterProvider s.
  pose proof (NewMetricsReporter_registerInOrder meterProvider s) as H.
  destruct (runState (registerInOrder _ _) s) as [[hs | [name cause]] s'].
  - exact H.
  - eexists. split; [ exact H | ]. split; reflexivity.
Qed.

(** C9. The creation requests [NewMetricsReporter] sends to the meter are
    the five below, in this order and under these names, each with one
    description that is not empty. Whenever the meter answers every creation
    without an error, all five are sent and a reporter is returned. In
    general the requests stop at the first instrument whose creation the
    meter answers with an error, and all five are sent when it answers none
    with an error; a run that returns a reporter has sent all five. *)
Theorem C9_instruments_registered :
  forall (meterProvider : MeterProvider SyncImpl Source) (s : Source),
  let expected :=
    [ Build_InstrumentRequest UpDownCounterKind
        "grpc.server.msg.received.total"
        [WithDescription "Total number of messages received on the server"];
      Build_InstrumentRequest ValueRecorderKind
        "grpc.server.msg.received.bytes"
        [WithDescription "Number of bytes received by the server"];
      Build_InstrumentRequest UpDownCounterKind
        "grpc.server.msg.sent.total"
        [WithDescription "Total number of messages sent by the server"];
      Build_InstrumentRequest ValueRecorderKind
        "grpc.server.msg.sent.bytes"
        [WithDescription "Number of bytes sent by the server"];
      Build_InstrumentRequest ValueRecorderKind
        "grpc.server.latency.milliseconds"
        [WithDescription
           "Latency recorded by the server to handle a gRPC request"] ] in
  let run :=
    runState (NewMetricsReporter instrumentationName
                (tracedProvider meterProvider)) (s, []) in
  (neverFails (Meter meterProvider instrumentationName) ->
   snd (snd run) = expected /\
   exists mr, fst run = (Some mr, None)) /\
  match fst (runState (registerInOrder
                         (Meter meterProvider instrumentationName) expected)
               s) with
  | inl _ => snd (snd run) = expected
  | inr (name, _) =>
      exists n rq,
        nth_error expected n = Some rq /\ requestName rq = name /\
        snd (snd run) = firstn (S n) expected
  end /\
  match fst (fst run) with
  | Some _ => snd (snd run) = expected
  | None =>
      exists n, (1 <= n <= 5)%nat /\ snd (snd run) = firstn n expected
  end /\
  Forall (fun rq =>
            exists d, requestOptions rq = [WithDescription d] /\ d <> "")
         expected.
Proof.
  intros meterProvider s. cbv zeta. split; [ | split; [ | split ] ].
  - intros Hok. unfold NewMetricsReporter, tracedProvider, traced. cbn.
    repeat match goal with
           | |- context [runState (?f ?m ?n ?o) ?s] =>
               is_var s;
               let E := fresh "E" in
               pose proof (Hok n o s) as E;
               destruct (runState (f m n o) s) as [[? [?|]] ?]; cbn in E;
               [ destruct E; discriminate | clear E; cbn ]
           end.
    split; [ reflexivity | eexists; reflexivity ].
  - unfold NewMetricsReporter, tracedProvider, traced, registerInOrder, create.
    unfold ServerMsgReceivedCounter, ServerMsgReceivedBytes,
      ServerMsgSentCounter, ServerMsgSentBytes, ServerLatencyMilliseconds.
    cbn.
    creation; [ exists 0%nat; eexists; repeat split | ].
    creation; [ exists 1%nat; eexists; repeat split | ].
    creation; [ exists 2%nat; eexists; repeat split | ].
    creation; [ exists 3%nat; eexists; repeat split | ].
    creation; [ exists 4%nat; eexists; repeat split | ].
    reflexivity.
  - unfold NewMetricsReporter, tracedProvider, traced.
    cbn.
    creation; [ exists 1%nat; split; [ lia | reflexivity ] | ].
    creation; [ exists 2%nat; split; [ lia | reflexivity ] | ].
    creation; [ exists 3%nat; split; [ lia | reflexivity ] | ].
    creation; [ exists 4%nat; split; [ lia | reflexivity ] | ].
    creation; [ exists 5%nat; split; [ lia | reflexivity ] | ].
    reflexivity.
  - repeat first [ apply Forall_cons | apply Forall_nil ];
      (eexists; split; [ reflexivity | discriminate ]).
Qed.

(** *** Method names *)

Lemma SplitN2_without_separator (s : string) (sep : ascii) :
  strings.ContainsRune s sep = false -> strings.SplitN2 s sep = [s].
Proof.
  induction s as [|a rest IH]; cbn; intros H; [ reflexivity | ].
  apply orb_false_iff in H as [Ha Hrest].
  rewrite Ha, (IH Hrest). reflexivity.
Qed.

Lemma SplitN2_at_separator (service method : string) (sep : ascii) :
  strings.ContainsRune service sep = false ->
  strings.SplitN2 (service ++ String sep method)%string sep = [service; method].
Proof.
  induction service as [|a rest IH]; cbn; intros H.
  - rewrite Ascii.eqb_refl. reflexivity.
  - apply orb_false_iff in H as [Ha Hrest].
    rewrite Ha, (IH Hrest). reflexivity.
Qed.

Lemma TrimLeft_service (service tail : string) (c : ascii) :
  service <> ""%string -> strings.ContainsRune service c = false ->
  strings.TrimLeft (String c (service ++ tail)%string) c
  = (service ++ tail)%string.
Proof.
  intros Hne Hno. cbn. rewrite Ascii.eqb_refl.
  destruct service as [|a rest]; [ congruence | ].
  cbn in *. apply orb_false_iff in Hno as [Ha _]. rewrite Ha. reflexivity.
Qed.

Lemma eqb_empty_false (s : string) : s <> ""%string -> String.eqb s "" = false.
Proof. intros H. now apply String.eqb_neq. Qed.

(** The labels of a name of the form [/<service>/<method>]. *)
Lemma parseFullMethod_well_formed (service method : string) :
  service <> ""%string -> strings.ContainsRune service "/" = false ->
  method <> ""%string ->
  parseFullMethod ("/" ++ service ++ "/" ++ method)%string
  = ((service ++ "/" ++ method)%string,
     [mkKeyValue RPCServiceKey (StringValue service);
      mkKeyValue RPCMethodKey (StringValue method)]).
Proof.
  intros Hs Hno Hm. unfold parseFullMethod.
  change ("/" ++ service ++ "/" ++ method)%string
    with (String "/" (service ++ String "/" method)%string).
  rewrite TrimLeft_service by assumption.
  rewrite SplitN2_at_separator by assumption.
  rewrite !eqb_empty_false by assumption. reflexivity.
Qed.

(** The labels of any name at all: a service label or none, followed by a
    method label or none. *)
Lemma parseFullMethod_best_effort (fullMethod : string) :
  exists service method,
    let labels := snd (parseFullMethod fullMethod) in
    labels = [] \/
    labels = [mkKeyValue RPCServiceKey (StringValue service)] \/
    labels = [mkKeyValue RPCMethodKey (StringValue method)] \/
    labels = [mkKeyValue RPCServiceKey (StringValue service);
              mkKeyValue RPCMethodKey (StringValue method)].
Proof.
  unfold parseFullMethod.
  destruct (strings.SplitN2 _ _) as [|service [|method [|]]];
    try (exists ""%string, ""%string; left; reflexivity).
  exists service, method. cbn.
  destruct (String.eqb service ""), (String.eqb method ""); cbn; auto.
Qed.

(** C7. For a full method name of the form [/<service>/<method>] the labels
    of the call are the two labels [rpc.service = <service>] and
    [rpc.method = <method>]. For every other name the call still runs to its
    end and returns the handler's result, under the labels that could be
    derived: none when the separator is missing, and otherwise a service
    label or none followed by a method label or none. *)
Theorem C7_method_labels :
  forall (mr : reporter) ctx (req : any) info,
  exists pre : list measurement,
  forall (handler : handlerT) (w : world),
    (exists post, invocation mr ctx req info handler w pre post) /\
    let labels := snd (parseFullMethod (FullMethod info)) in
    pre <> [] /\
    Forall (fun m => labelsOf m = labels) pre /\
    (forall service method,
        service <> ""%string -> strings.ContainsRune service "/" = false ->
        method <> ""%string ->
        FullMethod info = ("/" ++ service ++ "/" ++ method)%string ->
        labels = [mkKeyValue RPCServiceKey (StringValue service);
                  mkKeyValue RPCMethodKey (StringValue method)]) /\
    (strings.ContainsRune (strings.TrimLeft (FullMethod info) "/") "/" = false ->
     labels = []) /\
    (exists service method,
        labels = [] \/
        labels = [mkKeyValue RPCServiceKey (StringValue service)] \/
        labels = [mkKeyValue RPCMethodKey (StringValue method)] \/
        labels = [mkKeyValue RPCServiceKey (StringValue service);
                  mkKeyValue RPCMethodKey (StringValue method)]).
Proof.
  intros mr ctx req info. eexists. intros handler w.
  split; [ eexists; exact (UnaryServerInterceptor_run mr ctx req info handler w) | ].
  cbv zeta. split; [ discriminate | ].
  split.
  { unfold receivedSide.
    destruct (assertMessage req); repeat constructor. }
  split.
  { intros service method Hs Hno Hm ->.
    rewrite parseFullMethod_well_formed by assumption. reflexivity. }
  split.
  { intros Hno. unfold parseFullMethod.
    rewrite SplitN2_without_separator by assumption. reflexivity. }
  apply parseFullMethod_best_effort.
Qed.

(** *** Two invocations *)

Lemma skipn_length_app {A : Type} (l l' : list A) :
  skipn (length l) (l ++ l') = l'.
Proof. induction l; cbn; auto. Qed.

(** One run against a handler without side effects: the handler's result
    does not depend on the world, and the sink has grown by the received
    side and the sent side. *)
Lemma run_sideEffectFree (mr : reporter) ctx (req : any) info
    (handler : handlerT) (w w0 : world) :
  sideEffectFree handler ->
  let labels := snd (parseFullMethod (FullMethod info)) in
  let res := fst (runState (handler ctx req) w0) in
  let r := runState (UnaryServerInterceptor mr ctx req info handler) w in
  exists latency,
    latency = time.subMono (clock (snd r)) (clock w) /\
    fst r = res /\
    sink (snd r)
    = sink w ++ receivedSide mr ctx req labels
      ++ sentSide mr ctx (fst res) latency
           (labels ++ [statusCodeAttr (outcomeCode (snd res))]).
Proof.
  intros Hpure. cbv zeta.
  pose proof (UnaryServerInterceptor_run mr ctx req info handler w) as Hrun.
  cbv zeta in Hrun. unfold invocation in Hrun. rewrite Hrun. cbn [fst snd].
  set (w1 := record_all _ w).
  destruct (Hpure ctx req w1 w0) as (Hres & Hsink & _).
  eexists. split; [ reflexivity | ]. split; [ exact Hres | ].
  unfold record_all at 1. cbn [sink clock].
  rewrite Hsink, Hres. unfold w1, record_all. cbn [sink].
  rewrite <- app_assoc. reflexivity.
Qed.

(** C8, as amended. Two invocations with the same reporter, context, request
    and call info against a handler without side effects, started in any two
    worlds, return the same result and send the sink the same measurements,
    one for one, up to the value recorded to the latency recorder, which is
    each run's own elapsed time; when the two elapsed times are the same
    number of milliseconds the two sets of measurements are identical.
    Nothing of what the first run left in the world enters the second. *)
Theorem C8_runs_agree_up_to_latency :
  forall (mr : reporter) ctx (req : any) info (handler : handlerT),
  sideEffectFree handler ->
  forall w w' : world,
  let r := runState (UnaryServerInterceptor mr ctx req info handler) w in
  let r' := runState (UnaryServerInterceptor mr ctx req info handler) w' in
  fst r = fst r' /\
  sink (snd r) = sink w ++ newMeasurements w (snd r) /\
  sink (snd r') = sink w' ++ newMeasurements w' (snd r') /\
  Forall2 (sameButLatency mr)
    (newMeasurements w (snd r)) (newMeasurements w' (snd r')) /\
  (time.Milliseconds (time.subMono (clock (snd r)) (clock w))
   = time.Milliseconds (time.subMono (clock (snd r')) (clock w')) ->
   newMeasurements w (snd r) = newMeasurements w' (snd r')).
Proof.
  intros mr ctx req info handler Hpure w w'. cbv zeta.
  destruct (run_sideEffectFree mr ctx req info w w Hpure)
    as (l1 & Hl1 & Hres1 & Hsink1).
  destruct (run_sideEffectFree mr ctx req info w' w Hpure)
    as (l2 & Hl2 & Hres2 & Hsink2).
  cbv zeta in *.
  unfold newMeasurements. rewrite Hsink1, Hsink2, !skipn_length_app.
  rewrite <- Hl1, <- Hl2.
  split; [ congruence | ].
  split; [ reflexivity | ].
  split; [ reflexivity | ].
  split.
  - apply Forall2_app.
    + unfold receivedSide.
      destruct (assertMessage req);
        repeat first [ apply Forall2_cons | apply Forall2_nil ];
        left; reflexivity.
    + unfold sentSide.
      destruct (assertMessage _);
        repeat first [ apply Forall2_cons | apply Forall2_nil ];
        first [ left; reflexivity | right; eauto 8 ].
  - unfold sentSide. intros ->. reflexivity.
Qed.

End Properties.

(** ** The statements at concrete inputs *)

Lemma C2_measurement_counts_witness :
  distinctInstruments namedReporter /\
  exists pre : list (Measurement unit string),
  forall (handler : UnaryHandler unit string nat string unit)
         (w : World unit string unit),
  exists post,
    invocation namedReporter tt (messageValue nat "ping") getInfo handler w
      pre post /\
    let resp := fst (fst (runState (handler tt (messageValue nat "ping"))
                            (record_all pre w))) in
    let ms := pre ++ post in
    addsTo string_dec (serverMsgReceivedCounter namedReporter) ms = 1%nat /\
    addsTo string_dec (serverMsgSentCounter namedReporter) ms = 1%nat /\
    recordsTo string_dec (serverLatencyMilliseconds namedReporter) ms = 1%nat /\
    recordsTo string_dec (serverMsgReceivedBytes namedReporter) ms = 1%nat /\
    recordsTo string_dec (serverMsgSentBytes namedReporter) ms
      = (if sized resp then 1%nat else 0%nat) /\
    length ms = (3 + 1 + (if sized resp then 1 else 0))%nat.
Proof.
  split.
  - repeat split; discriminate.
  - apply (@C2_measurement_counts unit string nat string unit _ string_dec
             namedReporter tt (messageValue nat "ping") getInfo).
    repeat split; discriminate.
Defined.

Lemma C9_instruments_registered_witness :
  neverFails (Meter (namedProvider (fun _ => None)) "otelgrpc") /\
  snd (snd (runState (NewMetricsReporter "otelgrpc"
                        (tracedProvider (namedProvider (fun _ => None))))
              (0%nat, [])))
  = serverInstruments.
Proof.
  assert (Hok : neverFails (Meter (namedProvider (fun _ => None)) "otelgrpc")).
  { intros name opts s. split; reflexivity. }
  split; [ exact Hok | ].
  destruct (C9_instruments_registered "otelgrpc"
              (namedProvider (fun _ => None)) 0%nat) as [Hall _].
  exact (proj1 (Hall Hok)).
Defined.

Lemma C6_latency_milliseconds_witness :
  0 <= 999999 - 0 < 2 ^ 63 /\
  0 <= time.Milliseconds (time.subMono 999999 0) /\
  exists pre labels rest,
    invocation namedReporter tt (nilValue string nat) getInfo
      (answerAt 999999 (nilValue string nat) None) startWorld pre
      (Added (serverMsgSentCounter namedReporter) tt 1 labels ::
       Recorded (serverLatencyMilliseconds namedReporter) tt 0 labels :: rest).
Proof.
  assert (Hrange : 0 <= 999999 - 0 < 2 ^ 63) by lia.
  destruct (C6_latency_milliseconds unit namedReporter tt
              (nilValue string nat) getInfo) as [pre H].
  destruct (H (answerAt 999999 (nilValue string nat) None) startWorld)
    as (labels & rest & Hinv & _ & Hnonneg & Htrunc).
  destruct (Htrunc Hrange) as [Hms _].
  split; [ exact Hrange | ].
  split; [ apply Hnonneg; cbn; lia | ].
  exists pre, labels, rest.
  rewrite Hms in Hinv. exact Hinv.
Defined.

Lemma C7_method_labels_witness :
  (exists pre : list (Measurement unit string),
      pre <> [] /\
      Forall (fun m => labelsOf m
                       = [mkKeyValue RPCServiceKey (StringValue "pkg.Service");
                          mkKeyValue RPCMethodKey (StringValue "Get")]) pre) /\
  (exists pre : list (Measurement unit string),
      pre <> [] /\ Forall (fun m => labelsOf m = []) pre).
Proof.
  split.
  - destruct (C7_method_labels unit namedReporter tt
                (nilValue string nat) getInfo) as [pre H].
    destruct (H (answerAt 0 (nilValue string nat) None) startWorld)
      as (_ & Hne & Hall & Hwf & _ & _).
    exists pre. split; [ exact Hne | ].
    rewrite (Hwf "pkg.Service" "Get"
               ltac:(discriminate) ltac:(reflexivity)
               ltac:(discriminate) ltac:(reflexivity)) in Hall.
    exact Hall.
  - destruct (C7_method_labels unit namedReporter tt
                (nilValue string nat) bareInfo) as [pre H].
    destruct (H (answerAt 0 (nilValue string nat) None) startWorld)
      as (_ & Hne & Hall & _ & Hbare & _).
    exists pre. split; [ exact Hne | ].
    rewrite (Hbare ltac:(reflexivity)) in Hall.
    exact Hall.
Defined.

Lemma answerAt_sideEffectFree deadline resp err :
  sideEffectFree (answerAt deadline resp err).
Proof. intros ctx req w w'. repeat split. Qed.

Lemma C8_runs_agree_up_to_latency_witness :
  sideEffectFree (answerAt 5500000 (nilValue string nat) None) /\
  newMeasurements startWorld
    (snd (runState (UnaryServerInterceptor namedReporter tt
                      (messageValue nat "ping") getInfo
                      (answerAt 5500000 (nilValue string nat) None))
            startWorld))
  = newMeasurements laterWorld
      (snd (runState (UnaryServerInterceptor namedReporter tt
                        (messageValue nat "ping") getInfo
                        (answerAt 5500000 (nilValue string nat) None))
              laterWorld)).
Proof.
  assert (Hpure : sideEffectFree (answerAt 5500000 (nilValue string nat) None))
    by apply answerAt_sideEffectFree.
  split; [ exact Hpure | ].
  destruct (C8_runs_agree_up_to_latency namedReporter tt
              (messageValue nat "ping") getInfo Hpure startWorld laterWorld)
    as (_ & _ & _ & _ & Hsame).
  apply Hsame. reflexivity.
Defined.

(** C8, as the specification states it, at a concrete input: the handler has no
    side effects and answers when the clock reads 5 ms; the first of two
    invocations in a row records a latency of 5, the second a latency of 0,
    so the two sets of measurements are not identical. *)
Lemma C8_identical_runs_counterexample :
  sideEffectFree (answerAt 5000000 (nilValue string nat) None) /\
  newMeasurements startWorld
    (snd (runState (UnaryServerInterceptor namedReporter tt
                      (nilValue string nat) getInfo
                      (answerAt 5000000 (nilValue string nat) None))
            startWorld))
  <> newMeasurements
       (snd (runState (UnaryServerInterceptor namedReporter tt
                         (nilValue string nat) getInfo
                         (answerAt 5000000 (nilValue string nat) None))
               startWorld))
       (snd (runState (UnaryServerInterceptor namedReporter tt
                         (nilValue string nat) getInfo
                         (answerAt 5000000 (nilValue string nat) None))
               (snd (runState (UnaryServerInterceptor namedReporter tt
                                 (nilValue string nat) getInfo
                                 (answerAt 5000000 (nilValue string nat) None))
                       startWorld)))).
Proof.
  split.
  - apply answerAt_sideEffectFree.
  - vm_compute. discriminate.
Qed.

(** ** Scenarios of the specification, run on the model *)

(** Method [/pkg.Service/Get] called successfully: the received side carries
    the two method labels, the sent side carries them with the outcome OK. *)
Example scenario_get_ok :
  runState (UnaryServerInterceptor namedReporter tt (messageValue nat "ping")
              getInfo (answerAt 2500000 (messageValue nat "pong!") None))
    startWorld
  = ((messageValue nat "pong!", None),
     let method := [mkKeyValue "rpc.service" (StringValue "pkg.Service");
                    mkKeyValue "rpc.method" (StringValue "Get")] in
     let full := method ++ [mkKeyValue "status" (CodeValue codes.OK)] in
     mkWorld 2500000
       [Added (serverMsgReceivedCounter namedReporter) tt 1 method;
        Recorded (serverMsgReceivedBytes namedReporter) tt 4 method;
        Added (serverMsgSentCounter namedReporter) tt 1 full;
        Recorded (serverLatencyMilliseconds namedReporter) tt 2 full;
        Recorded (serverMsgSentBytes namedReporter) tt 5 full]
       tt).
Proof. reflexivity. Qed.

(** The handler returns an error with status code 5 (NotFound): the caller
    gets [(nil, thatError)], and the sent side carries the code 5. The
    request is not a sized payload, so no byte size is recorded. *)
Example scenario_not_found :
  runState (UnaryServerInterceptor namedReporter tt (otherValue string 7%nat)
              getInfo
              (answerAt 0 (nilValue string nat)
                 (Some (statusError codes.NotFound "no such key"))))
    startWorld
  = ((nilValue string nat, Some (statusError codes.NotFound "no such key")),
     let method := [mkKeyValue "rpc.service" (StringValue "pkg.Service");
                    mkKeyValue "rpc.method" (StringValue "Get")] in
     let full := method ++ [mkKeyValue "status" (CodeValue 5%N)] in
     mkWorld 0
       [Added (serverMsgReceivedCounter namedReporter) tt 1 method;
        Added (serverMsgSentCounter namedReporter) tt 1 full;
        Recorded (serverLatencyMilliseconds namedReporter) tt 0 full]
       tt).
Proof. reflexivity. Qed.

(** An error without a status is labelled with the fallback code, also when
    it wraps an error that has one. *)
Example scenario_plain_error :
  let err := wrapError "lookup failed: no such key"
               (statusError codes.NotFound "no such key") in
  map (fun m => labelsOf m)
    (newMeasurements startWorld
       (snd (runState
               (UnaryServerInterceptor namedReporter tt (nilValue string nat)
                  bareInfo (answerAt 0 (nilValue string nat) (Some err)))
               startWorld)))
  = [ []; [mkKeyValue "status" (CodeValue codes.Unknown)];
      [mkKeyValue "status" (CodeValue codes.Unknown)] ].
Proof. reflexivity. Qed.

(** A source that fails on the third creation: the error names the third
    instrument, no reporter is returned, and the meter was asked three
    times. *)
Example scenario_third_creation_fails :
  runState (NewMetricsReporter "otelgrpc"
              (tracedProvider (namedProvider (failsOn ServerMsgSentCounter))))
    (0%nat, [])
  = ((None,
      Some (wrapError
              "otelgrpc: failed to register metric 'grpc.server.msg.sent.total': duplicate instrument"
              (errorString "duplicate instrument"))),
     (3%nat, firstn 3 serverInstruments)).
Proof. reflexivity. Qed.

Example scenario_registration_succeeds :
  runState (NewMetricsReporter "otelgrpc" (namedProvider (fun _ => None)))
    0%nat
  = ((Some namedReporter, None), 5%nat).
Proof. reflexivity. Qed.

(** Durations are truncated, not rounded; the subtraction of clock readings
    saturates. *)
Example Milliseconds_examples :
  time.Milliseconds 1999999 = 1 /\ time.Milliseconds 999999 = 0 /\
  time.Milliseconds (-1999999) = -1 /\
  time.subMono (2 ^ 63 - 1) (-1) = time.maxDuration.
Proof. repeat split. Qed.

(** Method names that are not of the form [/<service>/<method>]. *)
Example parseFullMethod_examples :
  parseFullMethod "pkg.Service/Get"
  = ("pkg.Service/Get",
     [mkKeyValue "rpc.service" (StringValue "pkg.Service");
      mkKeyValue "rpc.method" (StringValue "Get")]) /\
  parseFullMethod "/pkg.Service/" 
  = ("pkg.Service/", [mkKeyValue "rpc.service" (StringValue "pkg.Service")]) /\
  parseFullMethod "/Get" = ("Get", []) /\
  parseFullMethod "" = ("", []).
Proof. repeat split. Qed.

(** ** Further properties of the registrar and of the interceptor *)

Section MoreProperties.

Variables (Ctx Msg Other SyncImpl App Source : Type).
Context {Msg_Message : proto.Message Msg}.
Variable instrumentationName : string.

Local Abbreviation world' := (World Ctx SyncImpl App).
Local Abbreviation any' := (Any Msg Other).
Local Abbreviation handlerT' := (UnaryHandler Ctx Msg Other SyncImpl App).
Local Abbreviation reporter' := (MetricsReporter SyncImpl).
Local Abbreviation measurement' := (Measurement Ctx SyncImpl).

(** The next creation of [NewMetricsReporter], by cases on its result. *)
Ltac next_creation :=
  match goal with
  | |- context [runState (?f ?m ?n ?o) ?s] =>
      is_var s;
      destruct (runState (f m n o) s) as [[? [?|]] ?] eqn:?; cbn
  end.

(** X1. [NewMetricsReporter] returns a reporter or an error, never both
    and never neither. *)
Theorem NewMetricsReporter_reporter_xor_error :
  forall (meterProvider : MeterProvider SyncImpl Source) (s : Source),
  let r := fst (runState (NewMetricsReporter instrumentationName meterProvider) s) in
  (exists mr, r = (Some mr, None)) \/ (exists err, r = (None, Some err)).
Proof.
  intros meterProvider s. cbv zeta. unfold NewMetricsReporter. cbn.
  do 5 (next_creation; [ right; eexists; reflexivity | ]).
  left. eexists. reflexivity.
Qed.

(** X2. Registration fails only when the meter does: with a meter none of
    whose creations returns an error, [NewMetricsReporter] returns a
    reporter and a nil error, from every state of the source. *)
Theorem NewMetricsReporter_succeeds :
  forall (meterProvider : MeterProvider SyncImpl Source),
  neverFails (Meter meterProvider instrumentationName) ->
  forall s : Source,
  exists mr s',
    runState (NewMetricsReporter instrumentationName meterProvider) s
    = ((Some mr, None), s').
Proof.
  intros meterProvider Hok s. unfold NewMetricsReporter. cbn.
  repeat match goal with
         | |- context [runState (?f ?m ?n ?o) ?s] =>
             is_var s;
             let E := fresh "E" in
             pose proof (Hok n o s) as E;
             destruct (runState (f m n o) s) as [[? [?|]] ?]; cbn in E;
             [ destruct E; discriminate | clear E; cbn ]
         end.
  do 2 eexists. reflexivity.
Qed.

(** X3. With a meter whose instruments are determined by their names, and
    different for different names, the reporter [NewMetricsReporter] returns
    holds the instruments of the five metric names, and these are five
    different instruments. *)
Theorem NewMetricsReporter_distinct_instruments :
  forall (meterProvider : MeterProvider SyncImpl Source)
         (implOf : string -> SyncImpl),
  namesInstruments (Meter meterProvider instrumentationName) implOf ->
  (forall a b, implOf a = implOf b -> a = b) ->
  forall (s s' : Source) (mr : reporter'),
  runState (NewMetricsReporter instrumentationName meterProvider) s
  = ((Some mr, None), s') ->
  counterInstrument (serverMsgReceivedCounter mr) = implOf ServerMsgReceivedCounter /\
  recorderInstrument (serverMsgReceivedBytes mr) = implOf ServerMsgReceivedBytes /\
  counterInstrument (serverMsgSentCounter mr) = implOf ServerMsgSentCounter /\
  recorderInstrument (serverMsgSentBytes mr) = implOf ServerMsgSentBytes /\
  recorderInstrument (serverLatencyMilliseconds mr)
  = implOf ServerLatencyMilliseconds /\
  distinctInstruments mr.
Proof.
  intros meterProvider implOf Hnames Hinj s s' mr.
  unfold NewMetricsReporter. cbn.
  repeat match goal with
         | |- context [runState (?f ?m ?n ?o) ?s] =>
             is_var s;
             let E := fresh "E" in
             pose proof (Hnames n o s) as E;
             destruct (runState (f m n o) s) as [[? [?|]] ?]; cbn in E;
             cbn; [ discriminate | ]
         end.
  intros Hret. injection Hret as <- _. unfold distinctInstruments. cbn.
  repeat match goal with E : _ /\ _ |- _ => destruct E end.
  repeat match goal with
         | E : ?x = implOf _ |- _ => rewrite !E; clear E
         end.
  repeat split; try reflexivity;
    intro Heq; apply Hinj in Heq; discriminate Heq.
Qed.

(** The interceptor leaves the clock and the application state to the
    handler: it only hands measurements to the sink. *)
Lemma record_all_record_all (ms ms' : list measurement') (w : world') :
  record_all ms' (record_all ms w) = record_all (ms ++ ms') w.
Proof. unfold record_all. cbn. now rewrite app_assoc. Qed.

Lemma sink_record_all (ms : list measurement') (w : world') :
  sink (record_all ms w) = sink w ++ ms.
Proof. reflexivity. Qed.

(** X4. Wrapping is invisible to the caller and to the application: for a
    handler that looks neither at the sink nor at the clock, the wrapped
    call returns what the direct call returns and leaves the application
    state as the direct call does. *)
Theorem UnaryServerInterceptor_transparent :
  forall (mr : reporter') ctx (req : any') info (handler : handlerT'),
  sinkAndClockBlind handler ->
  forall w : world',
  let wrapped := runState (UnaryServerInterceptor mr ctx req info handler) w in
  let direct := runState (handler ctx req) w in
  fst wrapped = fst direct /\
  app (snd wrapped) = app (snd direct).
Proof.
  intros mr ctx req info handler Hblind w. cbv zeta.
  pose proof (UnaryServerInterceptor_run mr ctx req info handler w) as Hrun.
  cbv zeta in Hrun. unfold invocation in Hrun. rewrite Hrun. cbn [fst snd].
  match type of Hrun with
  | context [record_all ?pre w] =>
      destruct (Hblind ctx req w (clock w) (sink w ++ pre)) as (Hr & Ha)
  end.
  split; [ exact Hr | exact Ha ].
Qed.

(** X5. Before the handler runs, the sink receives the received side in
    this order: one add of 1 to the received counter and, when the request
    is a [proto.Message], one record of its [proto.Size] to the
    received-bytes recorder, both under the labels of the method name. *)
Theorem UnaryServerInterceptor_received_side :
  forall (mr : reporter') ctx (req : any') info (handler : handlerT')
         (w : world'),
  let labels := snd (parseFullMethod (FullMethod info)) in
  exists post,
    invocation mr ctx req info handler w
      (Added (serverMsgReceivedCounter mr) ctx 1 labels ::
       match req with
       | messageValue _ p =>
           [Recorded (serverMsgReceivedBytes mr) ctx (proto.Size p) labels]
       | nilValue _ _ | otherValue _ _ => []
       end)
      post.
Proof.
  intros mr ctx req info handler w. cbv zeta. eexists.
  pose proof (UnaryServerInterceptor_run mr ctx req info handler w) as Hrun.
  cbv zeta in Hrun. unfold receivedSide in Hrun.
  destruct req; exact Hrun.
Qed.

(** X6. The two counters only ever go up by one: every add the interceptor
    makes has the value 1, whatever the request, the response and the
    error. *)
Theorem UnaryServerInterceptor_adds_one :
  forall (mr : reporter') ctx (req : any') info,
  exists pre : list measurement',
  forall (handler : handlerT') (w : world'),
  exists post,
    invocation mr ctx req info handler w pre post /\
    Forall (fun m => match m with
                     | Added _ _ value _ => value = 1
                     | Recorded _ _ _ _ => True
                     end) (pre ++ post).
Proof.
  intros mr ctx req info. eexists. intros handler w. eexists.
  split; [ exact (UnaryServerInterceptor_run mr ctx req info handler w) | ].
  unfold receivedSide, sentSide.
  destruct (assertMessage req), (assertMessage _); cbn;
    repeat first [ apply Forall_cons | apply Forall_nil ]; auto.
Qed.

(** [time.subMono] stays within the bounds of a [Duration]. *)
Lemma subMono_bounds (t u : Z) :
  time.minDuration <= time.subMono t u <= time.maxDuration.
Proof.
  unfold time.subMono, time.int64, time.minDuration, time.maxDuration.
  pose proof (Z.mod_pos_bound (t - u + 2 ^ 63) (2 ^ 64) ltac:(lia)).
  destruct (_ && _); [ lia | ].
  destruct (_ && _); lia.
Qed.

(** X7. The latency recorded is at most 9223372036854 ms in absolute value,
    for every pair of clock readings: the subtraction saturates instead of
    wrapping around. *)
Theorem UnaryServerInterceptor_latency_bounded :
  forall (mr : reporter') ctx (req : any') info,
  exists pre : list measurement',
  forall (handler : handlerT') (w : world'),
  exists labels rest ms,
    invocation mr ctx req info handler w pre
      (Added (serverMsgSentCounter mr) ctx 1 labels ::
       Recorded (serverLatencyMilliseconds mr) ctx ms labels :: rest) /\
    - 9223372036854 <= ms <= 9223372036854.
Proof.
  intros mr ctx req info. eexists. intros handler w. do 3 eexists.
  split; [ exact (UnaryServerInterceptor_run mr ctx req info handler w) | ].
  unfold time.Milliseconds.
  match goal with |- context [time.subMono ?t ?u] =>
    pose proof (subMono_bounds t u) as [Hlo Hhi];
    set (d := time.subMono t u) in *
  end.
  unfold time.minDuration, time.maxDuration in *.
  pose proof (Z.quot_le_mono _ _ 1000000 ltac:(lia) Hlo) as Hq1.
  pose proof (Z.quot_le_mono _ _ 1000000 ltac:(lia) Hhi) as Hq2.
  change (- 2 ^ 63 ÷ 1000000) with (- 9223372036854) in Hq1.
  change ((2 ^ 63 - 1) ÷ 1000000) with 9223372036854 in Hq2.
  lia.
Qed.

(** X8. Wrapping keeps a sink that only grows: around a handler that only
    adds to the sink, the wrapped call only adds to it, the received side
    before what the handler added and the sent side after it. *)
Theorem UnaryServerInterceptor_appendOnly :
  forall (mr : reporter') info (handler : handlerT'),
  appendOnly handler ->
  forall ctx (req : any') (w : world'),
  exists pre mid post,
    sink (snd (runState (handler ctx req) (record_all pre w)))
    = (sink w ++ pre) ++ mid /\
    sink (snd (runState (UnaryServerInterceptor mr ctx req info handler) w))
    = sink w ++ pre ++ mid ++ post /\
    (1 <= length pre)%nat /\ (2 <= length post)%nat.
Proof.
  intros mr info handler Hgrow ctx req w.
  pose proof (UnaryServerInterceptor_run mr ctx req info handler w) as Hrun.
  cbv zeta in Hrun. unfold invocation in Hrun.
  match type of Hrun with
  | context [record_all ?pre w] =>
      destruct (Hgrow ctx req (record_all pre w)) as [mid Hmid];
      exists pre, mid
  end.
  rewrite sink_record_all in Hmid.
  eexists. rewrite Hrun. cbn [fst snd]. rewrite sink_record_all, Hmid.
  split; [ reflexivity | ].
  split; [ rewrite <- !app_assoc; reflexivity | ].
  unfold receivedSide, sentSide.
  split; [ cbn; lia | destruct (assertMessage _); cbn; lia ].
Qed.

(** X9. Two reporters stacked on one handler: the call returns what the
    handler returns. Before the handler runs the sink receives the received
    side of the outer reporter, then that of the inner one; after it, the
    sent side of the inner reporter, then that of the outer one. Both
    reporters use the same labels, with the outcome label of the handler's
    error on the sent sides. *)
Theorem UnaryServerInterceptor_stacked :
  forall (outer inner : reporter') ctx (req : any') info
         (handler : handlerT') (w : world'),
  let labels := snd (parseFullMethod (FullMethod info)) in
  let received (mr : reporter') :=
    Added (serverMsgReceivedCounter mr) ctx 1 labels ::
    match req with
    | messageValue _ p =>
        [Recorded (serverMsgReceivedBytes mr) ctx (proto.Size p) labels]
    | nilValue _ _ | otherValue _ _ => []
    end in
  let hw := runState (handler ctx req)
              (record_all (received outer ++ received inner) w) in
  let full :=
    labels ++ [statusCodeAttr
                 match snd (fst hw) with
                 | None => codes.OK
                 | Some (statusError c _) => c
                 | Some _ => codes.Unknown
                 end] in
  let sent (mr : reporter') (ms : Z) :=
    Added (serverMsgSentCounter mr) ctx 1 full ::
    Recorded (serverLatencyMilliseconds mr) ctx ms full ::
    match fst (fst hw) with
    | messageValue _ p =>
        [Recorded (serverMsgSentBytes mr) ctx (proto.Size p) full]
    | nilValue _ _ | otherValue _ _ => []
    end in
  exists msInner msOuter,
    runState (UnaryServerInterceptor outer ctx req info
                (fun ctx' req' =>
                   UnaryServerInterceptor inner ctx' req' info handler)) w
    = (fst hw, record_all (sent inner msInner ++ sent outer msOuter) (snd hw)).
Proof.
  intros outer inner ctx req info handler w. cbv zeta.
  pose proof (UnaryServerInterceptor_run outer ctx req info
                (fun ctx' req' =>
                   UnaryServerInterceptor inner ctx' req' info handler) w)
    as Hout.
  cbv zeta in Hout. unfold invocation in Hout.
  match type of Hout with
  | context [record_all ?pre w] =>
      pose proof (UnaryServerInterceptor_run inner ctx req info handler
                    (record_all pre w)) as Hin
  end.
  cbv zeta in Hin. unfold invocation in Hin.
  rewrite Hin in Hout. cbn [fst snd] in Hout.
  rewrite !record_all_record_all in Hout.
  unfold receivedSide, sentSide, outcomeCode in Hout.
  destruct req; cbn [assertMessage] in Hout;
    destruct (runState (handler ctx _) _) as [[[|p'|o'] err] w2];
    cbn [fst snd assertMessage] in *; do 2 eexists; exact Hout.
Qed.

(** *** The error of a failed registration *)

Lemma length_append (a b : string) :
  String.length (a ++ b)%string = (String.length a + String.length b)%nat.
Proof. induction a as [|c a IH]; cbn; [ reflexivity | now rewrite IH ]. Qed.

Lemma append_cancel_l (p a b : string) :
  (p ++ a)%string = (p ++ b)%string -> a = b.
Proof.
  induction p as [|c p IH]; cbn; intros H; [ exact H | ].
  injection H as H. now apply IH.
Qed.

Lemma append_cancel_r (t a b : string) :
  (a ++ t)%string = (b ++ t)%string -> a = b.
Proof.
  revert b. induction a as [|c a IH]; intros [|c' b] H; cbn in H.
  - reflexivity.
  - apply (f_equal String.length) in H. cbn in H.
    rewrite length_append in H. lia.
  - apply (f_equal String.length) in H. cbn in H.
    rewrite length_append in H. lia.
  - injection H as -> H. f_equal. now apply IH.
Qed.

(** X10. The error of a failed registration tells the instruments apart:
    for one and the same cause, two different metric names give two
    different error messages. *)
Theorem withMessage_tells_metrics_apart :
  forall (cause : error) (metric1 metric2 : string),
  metric1 <> metric2 ->
  Error (withMessage cause metric1) <> Error (withMessage cause metric2).
Proof.
  intros cause metric1 metric2 Hne Heq. apply Hne.
  unfold withMessage in Heq. cbn [Error] in Heq.
  apply append_cancel_l in Heq.
  now apply append_cancel_r in Heq.
Qed.

End MoreProperties.

Lemma NewMetricsReporter_succeeds_witness :
  neverFails (Meter (namedProvider (fun _ => None)) "otelgrpc") /\
  exists mr s',
    runState (NewMetricsReporter "otelgrpc" (namedProvider (fun _ => None)))
      0%nat
    = ((Some mr, None), s').
Proof.
  assert (Hok : neverFails (Meter (namedProvider (fun _ => None)) "otelgrpc")).
  { intros name opts s. split; reflexivity. }
  split; [ exact Hok | ].
  exact (NewMetricsReporter_succeeds "otelgrpc"
           (namedProvider (fun _ => None)) Hok 0%nat).
Defined.

Lemma NewMetricsReporter_distinct_instruments_witness :
  namesInstruments (Meter (namedProvider (fun _ => None)) "otelgrpc")
    (fun name => name) /\
  distinctInstruments namedReporter.
Proof.
  assert (Hnames : namesInstruments
                     (Meter (namedProvider (fun _ => None)) "otelgrpc")
                     (fun name => name)).
  { intros name opts s. split; reflexivity. }
  split; [ exact Hnames | ].
  apply (@NewMetricsReporter_distinct_instruments string nat "otelgrpc"
           (namedProvider (fun _ => None)) (fun name => name) Hnames
           (fun a b H => H) 0%nat 5%nat namedReporter eq_refl).
Defined.

Lemma UnaryServerInterceptor_transparent_witness :
  sinkAndClockBlind (answerAt 2500000 (messageValue nat "pong!") None) /\
  fst (runState (UnaryServerInterceptor namedReporter tt
                   (messageValue nat "ping") getInfo
                   (answerAt 2500000 (messageValue nat "pong!") None))
         laterWorld)
  = (messageValue nat "pong!", None).
Proof.
  assert (Hblind : sinkAndClockBlind
                     (answerAt 2500000 (messageValue nat "pong!") None)).
  { intros ctx req w t ms. split; reflexivity. }
  split; [ exact Hblind | ].
  exact (proj1 (UnaryServerInterceptor_transparent namedReporter tt
                  (messageValue nat "ping") getInfo Hblind laterWorld)).
Defined.

Lemma UnaryServerInterceptor_appendOnly_witness :
  appendOnly echoHandler /\
  exists pre mid post,
    sink (snd (runState (echoHandler tt (messageValue nat "ping"))
                 (record_all pre laterWorld)))
    = (sink laterWorld ++ pre) ++ mid /\
    sink (snd (runState (UnaryServerInterceptor namedReporter tt
                           (messageValue nat "ping") getInfo echoHandler)
                 laterWorld))
    = sink laterWorld ++ pre ++ mid ++ post /\
    (1 <= length pre)%nat /\ (2 <= length post)%nat.
Proof.
  assert (Hgrow : appendOnly echoHandler).
  { intros ctx req w. eexists. reflexivity. }
  split; [ exact Hgrow | ].
  exact (UnaryServerInterceptor_appendOnly namedReporter getInfo Hgrow tt
           (messageValue nat "ping") laterWorld).
Defined.

Lemma withMessage_tells_metrics_apart_witness :
  ServerMsgSentCounter <> ServerMsgSentBytes /\
  Error (withMessage (errorString "duplicate instrument") ServerMsgSentCounter)
  <> Error (withMessage (errorString "duplicate instrument") ServerMsgSentBytes).
Proof.
  assert (Hne : ServerMsgSentCounter <> ServerMsgSentBytes) by discriminate.
  split; [ exact Hne | ].
  exact (@withMessage_tells_metrics_apart
           (errorString "duplicate instrument") _ _ Hne).
Defined.
